(** * Validators for COALA IP models

    A shallow embedding of [coalaip/model_validators.py] and the proofs of
    its validation rules.

    The module is a handful of attrs-style validators: functions of an
    owning instance, an attribute descriptor and a candidate value that
    either fall off their end (returning [None]) or raise.  They are
    embedded as computations in a small state-and-exception monad; the
    state is whatever a wrapped validator may touch, and none of the
    validators of the module touches it. *)

From Stdlib Require Import ZArith String Ascii List.
From stdpp Require Import base gmap sets strings pretty.

Local Open Scope string_scope.

#[local] Set Warnings "-clear-no-such-hyp".

(** ** Python values *)

(** Any other object, by what the validators can observe of it: the name
    of its type, the arity of its [__call__] when its type has one, and
    the text [format(o, '')] gives. *)
Record pyobject := PyObject {
  ob_type : string;
  ob_call : option nat;
  ob_str  : string
}.

(** The values a field of a payload may hold.  [PyStrSub cls s] is an
    instance of a class [cls] derived from [str]; [PyObj] is an instance
    of a type that is none of [NoneType], [bool], [int], [str] or a
    subclass of [str] (a float, a list, a function, ...). *)
Inductive pyval :=
| PyNone
| PyBool (b : bool)
| PyInt (n : Z)
| PyStr (s : string)
| PyStrSub (cls : string) (s : string)
| PyObj (o : pyobject).



(** [isinstance(v, str)]: true of a [str] and of an instance of any class
    derived from it. *)
Definition isinstance_str (v : pyval) : bool :=
  match v with
  | PyStr _ | PyStrSub _ _ => true
  | _ => false
  end.

(** [callable(v)] *)
Definition callable (v : pyval) : bool :=
  match v with
  | PyObj o => bool_decide (is_Some (ob_call o))
  | _ => false
  end.

(** [v is False] and [v is True]: [False] and [True] are singletons, so
    identity with them is decided by the value. *)
Definition is_False (v : pyval) : bool :=
  match v with
  | PyBool false => true
  | _ => false
  end.

Definition is_True (v : pyval) : bool :=
  match v with
  | PyBool true => true
  | _ => false
  end.

(** [bool(v)], the truth value a coercion would use.  The validators never
    call it; it is here to state what they do not do. *)
Definition truthy (v : pyval) : option bool :=
  match v with
  | PyNone => Some false
  | PyBool b => Some b
  | PyInt n => Some (negb (n =? 0)%Z)
  | PyStr s | PyStrSub _ s => Some (negb (String.eqb s ""))
  | PyObj _ => None
  end.

(** [format(v, '')], as [str.format] renders a field without a format
    specification. *)
Definition py_str (v : pyval) : string :=
  match v with
  | PyNone => "None"
  | PyBool true => "True"
  | PyBool false => "False"
  | PyInt n => pretty n
  | PyStr s => s
  | PyStrSub _ s => s
  | PyObj o => ob_str o
  end.

(** ** Exceptions and outcomes *)

Inductive exn_class :=
| TypeError
| ValueError
| KeyError
| IndexError
| ModelDataError.

Record exn := Exn { exn_cls : exn_class; exn_msg : string }.

Inductive outcome (A : Type) :=
| Return (a : A)
| Raise (e : exn).

Arguments Return {A} a.
Arguments Raise {A} e.

(** ** [str.format]

    The fragment the templates of the module use: literal text, the
    escapes [{{] and [}}], and replacement fields [{}] (automatic
    numbering) and [{name}] (keyword), without conversion or format
    specification. *)

Fixpoint kw_lookup (kwargs : list (string * string)) (k : string) : option string :=
  match kwargs with
  | [] => None
  | (k', x) :: rest => if String.eqb k' k then Some x else kw_lookup rest k
  end.

Definition format_field (args : list string) (kwargs : list (string * string))
    (auto : nat) (field : string) : outcome string :=
  if String.eqb field "" then
    match args !! auto with
    | Some x => Return x
    | None => Raise (Exn IndexError
        ("Replacement index " +:+ pretty auto +:+
         " out of range for positional args tuple"))
    end
  else
    match kw_lookup kwargs field with
    | Some x => Return x
    | None => Raise (Exn KeyError ("'" +:+ field +:+ "'"))
    end.

(** One pass over the template; [field] is [Some f] inside a replacement
    field whose name read so far is [f]. *)
Fixpoint format_go (args : list string) (kwargs : list (string * string))
    (auto : nat) (field : option string) (t : string) : outcome string :=
  match t with
  | EmptyString =>
    match field with
    | None => Return ""
    | Some _ => Raise (Exn ValueError "expected '}' before end of string")
    end
  | String c t' =>
    match field with
    | Some f =>
      if Ascii.eqb c "}" then
        match format_field args kwargs auto f with
        | Return x =>
          match format_go args kwargs
                  (if String.eqb f "" then S auto else auto) None t' with
          | Return r => Return (x +:+ r)
          | Raise e => Raise e
          end
        | Raise e => Raise e
        end
      else format_go args kwargs auto (Some (f +:+ String c "")) t'
    | None =>
      if Ascii.eqb c "{" then
        match t' with
        | String "{" t'' =>
          match format_go args kwargs auto None t'' with
          | Return r => Return (String "{" r)
          | Raise e => Raise e
          end
        | _ => format_go args kwargs auto (Some "") t'
        end
      else if Ascii.eqb c "}" then
        match t' with
        | String "}" t'' =>
          match format_go args kwargs auto None t'' with
          | Return r => Return (String "}" r)
          | Raise e => Raise e
          end
        | _ => Raise (Exn ValueError "Single '}' encountered in format string")
        end
      else
        match format_go args kwargs auto None t' with
        | Return r => Return (String c r)
        | Raise e => Raise e
        end
    end
  end.

(** [str.format] of the template [t] on positional and keyword arguments *)
Definition format (t : string) (args : list string)
    (kwargs : list (string * string)) : outcome string :=
  format_go args kwargs 0 None t.

(** [sep.join(l)] *)
Fixpoint join (sep : string) (l : list string) : string :=
  match l with
  | [] => ""
  | [x] => x
  | x :: rest => x +:+ sep +:+ join sep rest
  end.

(** ** The arguments of a validator *)

(** The owning instance, of which the validators read
    [instance.__class__.__name__] only. *)
Record instance := Instance { class_name : string }.

(** The attribute descriptor, of which they read [attribute.name] only. *)
Record attribute := Attribute { name : string }.

(** The field mapping: string keys to arbitrary values. *)
Abbreviation mapping := (gmap string pyval).

(** [value.get(key, default)] *)
Definition dict_get (value : mapping) (key : string) (dflt : pyval) : pyval :=
  default dflt (value !! key).

(** [key in value] *)
Definition dict_contains (value : mapping) (key : string) : bool :=
  bool_decide (key ∈ dom value).

(** ** The monad of validators *)

Section Validators.

(** The state a wrapped validator may read and write. *)
Context {S : Type}.

Definition M (A : Type) : Type := S -> outcome A * S.

Definition ret {A} (a : A) : M A := fun s => (Return a, s).

Definition raise {A} (e : exn) : M A := fun s => (Raise e, s).

Definition bind {A B} (c : M A) (k : A -> M B) : M B :=
  fun s =>
    match c s with
    | (Return a, s') => k a s'
    | (Raise e, s') => (Raise e, s')
    end.

(** A pure computation that may raise, run in [M]. *)
Definition lift {A} (o : outcome A) : M A := fun s => (o, s).

Notation "'let!' x ':=' c 'in' k" := (bind c (fun x => k))
  (at level 10, x name, c at level 100, k at level 200).
Notation "c ';;' k" := (bind c (fun _ => k))
  (at level 100, k at level 200, right associativity).

(** [for x in l: body(x)] *)
Fixpoint for_each {A} (l : list A) (body : A -> M unit) : M unit :=
  match l with
  | [] => ret tt
  | x :: rest => body x ;; for_each rest body
  end.

Definition validator : Type := instance -> attribute -> mapping -> M pyval.

(** ** The validators, in the order of the module

    [use_model_attr], which looks a validator up on the owning instance
    and calls it, is left out: it takes no part in the rules below. *)

Definition is_callable (inst : instance) (attr : attribute) (value : pyval) : M pyval :=
  (if negb (callable value) then
     let! msg := lift (format "'{}' must be callable" [name attr] []) in
     raise (Exn TypeError msg)
   else ret tt) ;;
  ret PyNone.

(** The decorator that [does_not_contain], called on [avoid_keys] and
    [error_cls], returns, applied to [func].  In the source [error_cls] defaults to [ValueError]; here it
    is always given. *)
Definition does_not_contain (avoid_keys : list string) (error_cls : exn_class)
    (func : validator) : validator :=
  fun inst attr value =>
    let instance_name := class_name inst in
    let num_matched_keys := size (list_to_set (C := gset string) avoid_keys ∩ dom value) in
    (if (0 <? num_matched_keys)%nat then
       let avoid_keys_str := join ", " avoid_keys in
       let! err_str := lift (format
         ("Given keys ({num_matched} of {{avoid_keys}} " +:+
          "that must not be given in the '{attr}' of a " +:+
          "'{cls}'")
         []
         [("num_matched", pretty num_matched_keys);
          ("avoid_keys", avoid_keys_str);
          ("attr", name attr);
          ("cls", instance_name)]) in
       raise (Exn error_cls err_str)
     else ret tt) ;;
    func inst attr value.

Definition is_creation_model : validator :=
  fun inst attr value =>
    let creation_name := dict_get value "name" PyNone in
    (if negb (isinstance_str creation_name) then
       let instance_name := class_name inst in
       let! err_str := lift (format
         ("'name' must be given as a string in the '{attr}' " +:+
          "parameter of a '{cls}'. Given " +:+
          "'{value}'")
         []
         [("attr", name attr);
          ("cls", instance_name);
          ("value", py_str creation_name)]) in
       raise (Exn ModelDataError err_str)
     else ret tt) ;;
    ret PyNone.

Definition is_work_model : validator :=
  fun inst attr value =>
    let instance_name := class_name inst in
    is_creation_model inst attr value ;;
    (if dict_contains value "manifestationOfWork" then
       let! err_str := lift (format
         ("'manifestationOfWork' must not be given in the '{attr}' " +:+
          "parameter of a '{cls}'")
         []
         [("attr", name attr);
          ("cls", instance_name)]) in
       raise (Exn ModelDataError err_str)
     else ret tt) ;;
    let is_manifestation := dict_get value "isManifestation" (PyBool false) in
    (if negb (is_False is_manifestation) then
       let! err_str := lift (format
         ("'isManifestation' must be False if given in the " +:+
          "'{attr}' parameter of a '{cls}'. Given " +:+
          "'{value}")
         []
         [("attr", name attr);
          ("cls", instance_name);
          ("value", py_str is_manifestation)]) in
       raise (Exn ModelDataError err_str)
     else ret tt) ;;
    ret PyNone.

Definition is_manifestation_model : validator :=
  fun inst attr value =>
    let instance_name := class_name inst in
    is_creation_model inst attr value ;;
    let manifestation_of := dict_get value "manifestationOfWork" PyNone in
    (if negb (isinstance_str manifestation_of) then
       let! err_str := lift (format
         ("'manifestationOfWork' must be given as a string in the " +:+
          "'{attr}' parameter of a '{cls}'. Given " +:+
          "'{value}'")
         []
         [("attr", name attr);
          ("cls", instance_name);
          ("value", py_str manifestation_of)]) in
       raise (Exn ModelDataError err_str)
     else ret tt) ;;
    let is_manifestation := dict_get value "isManifestation" (PyBool true) in
    (if negb (is_True is_manifestation) then
       let! err_str := lift (format
         ("'isManifestation' must be True if given in the " +:+
          "'{attr}' parameter of a '{cls}'. Given " +:+
          "'{value}'")
         []
         [("attr", name attr);
          ("cls", instance_name);
          ("value", py_str is_manifestation)]) in
       raise (Exn ModelDataError err_str)
     else ret tt) ;;
    ret PyNone.

(** The function the decorator of [is_right_model] wraps. *)
Definition is_right_model_body : validator :=
  fun inst attr value =>
    for_each ["allowedBy"; "license"] (fun key =>
      let key_value := dict_get value key PyNone in
      if negb (isinstance_str key_value) then
        let instance_name := class_name inst in
        let! err_str := lift (format
          ("'{key}' must be given as a string in " +:+
           "the '{attr}' parameter of a '{cls}'. Given " +:+
           "'{value}'")
          []
          [("key", key);
           ("attr", name attr);
           ("cls", instance_name);
           ("value", py_str key_value)]) in
        raise (Exn ModelDataError err_str)
      else ret tt) ;;
    ret PyNone.

(** [@does_not_contain('rightsOf', error_cls=ModelDataError)] *)
Definition is_right_model : validator :=
  does_not_contain ["rightsOf"] ModelDataError is_right_model_body.

(** The function the decorator of [is_copyright_model] wraps. *)
Definition is_copyright_model_body : validator :=
  fun inst attr value =>
    let rights_of := dict_get value "rightsOf" PyNone in
    (if negb (isinstance_str rights_of) then
       let instance_name := class_name inst in
       let! err_str := lift (format
         ("'rightsOf' must be given as a string in " +:+
          "the '{attr}' parameter of a '{cls}'. Given " +:+
          "'{value}'")
         []
         [("attr", name attr);
          ("cls", instance_name);
          ("value", py_str rights_of)]) in
       raise (Exn ModelDataError err_str)
     else ret tt) ;;
    ret PyNone.

(** [@does_not_contain('allowedBy', error_cls=ModelDataError)] *)
Definition is_copyright_model : validator :=
  does_not_contain ["allowedBy"] ModelDataError is_copyright_model_body.

End Validators.

Arguments M : clear implicits.
Arguments validator : clear implicits.

(** ** Delegation to a sibling attribute *)

Section Delegation.

Context {S : Type}.

(** [getattr(instance, attr)], Python's own: it returns what the
    attribute holds or raises, and may run code of the instance on the
    way.  What it returns is taken to be a validator, as the models that
    use [use_model_attr] have it. *)
Variable getattr : instance -> string -> M S (validator S).

(** The validator that [use_model_attr(attr)] returns.  The result of the
    call is dropped: the function falls off its end. *)
Definition use_model_attr (attr : string) : validator S :=
  fun inst attribute value =>
    bind (getattr inst attr) (fun use =>
    bind (use inst attribute value) (fun _ =>
    ret PyNone)).

End Delegation.

(** ** Outcomes and the exceptions raised *)

(** The call returned [None]. *)
Definition passes {S} (r : outcome pyval * S) : Prop :=
  r.1 = Return PyNone.

(** The call raised an exception of class [cls]. *)
Definition raises {S} (cls : exn_class) (r : outcome pyval * S) : Prop :=
  exists msg, r.1 = Raise (Exn cls msg).

(** [needle in hay], on strings. *)
Fixpoint str_contains (needle hay : string) : bool :=
  String.prefix needle hay ||
  match hay with
  | EmptyString => false
  | String _ rest => str_contains needle rest
  end.


Definition forbidden_msg (num attr cls : string) : string :=
  "Given keys (" +:+ num +:+ " of {avoid_keys} that must not be given in the '"
  +:+ attr +:+ "' of a '" +:+ cls +:+ "'".

Definition not_string_msg (key attr cls given : string) : string :=
  "'" +:+ key +:+ "' must be given as a string in the '" +:+ attr
  +:+ "' parameter of a '" +:+ cls +:+ "'. Given '" +:+ given +:+ "'".

Definition work_key_msg (attr cls : string) : string :=
  "'manifestationOfWork' must not be given in the '" +:+ attr
  +:+ "' parameter of a '" +:+ cls +:+ "'".

Definition not_false_msg (attr cls given : string) : string :=
  "'isManifestation' must be False if given in the '" +:+ attr
  +:+ "' parameter of a '" +:+ cls +:+ "'. Given '" +:+ given.

Definition not_true_msg (attr cls given : string) : string :=
  "'isManifestation' must be True if given in the '" +:+ attr
  +:+ "' parameter of a '" +:+ cls +:+ "'. Given '" +:+ given +:+ "'".


Definition forbidden_error (cls : exn_class) (num : nat)
    (inst : instance) (attr : attribute) : exn :=
  Exn cls (forbidden_msg (pretty num) (name attr) (class_name inst)).

Definition not_string_error (key : string) (inst : instance)
    (attr : attribute) (given : pyval) : exn :=
  Exn ModelDataError
    (not_string_msg key (name attr) (class_name inst) (py_str given)).

Definition work_key_error (inst : instance) (attr : attribute) : exn :=
  Exn ModelDataError (work_key_msg (name attr) (class_name inst)).

Definition not_false_error (inst : instance) (attr : attribute)
    (given : pyval) : exn :=
  Exn ModelDataError
    (not_false_msg (name attr) (class_name inst) (py_str given)).

Definition not_true_error (inst : instance) (attr : attribute)
    (given : pyval) : exn :=
  Exn ModelDataError
    (not_true_msg (name attr) (class_name inst) (py_str given)).

(** The keys each family of validators reads. *)
Definition creation_keys : list string :=
  ["name"; "manifestationOfWork"; "isManifestation"].

Definition right_keys : list string :=
  ["allowedBy"; "license"; "rightsOf"].

(** Two mappings hold the same at every key of [keys]: present in both
    with the same value, or absent from both. *)
Definition agree_on (keys : list string) (v1 v2 : mapping) : Prop :=
  forall k, k ∈ keys -> v1 !! k = v2 !! k.

(** The mapping has [key], and the value there is an instance of [str]. *)
Definition holds_string (value : mapping) (key : string) : Prop :=
  exists x, value !! key = Some x /\ isinstance_str x = true.


(** The validator [f] gives the same outcome, exception and message
    included, on mappings that agree on [keys]. *)
Definition reads_only {S} (keys : list string) (f : validator S) : Prop :=
  forall inst attr v1 v2 s,
    agree_on keys v1 v2 -> f inst attr v1 s = f inst attr v2 s.

(** Setting or deleting a key outside [keys] leaves the outcome of [f] as
    it was. *)
Definition ignores_other_keys {S} (keys : list string) (f : validator S) : Prop :=
  forall inst attr v s k x,
    k ∉ keys ->
    f inst attr (<[k := x]> v) s = f inst attr v s /\
    f inst attr (delete k v) s = f inst attr v s.

(** The call returned [None] and left the state as it was, or raised a
    [ModelDataError] whose message holds the name of the attribute and the
    name of the class of the instance, and left the state as it was. *)
Definition reported {S} (inst : instance) (attr : attribute) (s : S)
    (r : outcome pyval * S) : Prop :=
  r = (Return PyNone, s) \/
  exists msg,
    r = (Raise (Exn ModelDataError msg), s) /\
    str_contains (name attr) msg = true /\
    str_contains (class_name inst) msg = true.


(** The number of the keys of [avoid_keys] that the mapping has, each
    counted once. *)
Definition matched_keys (avoid_keys : list string) (value : mapping) : nat :=
  size (list_to_set (C := gset string) avoid_keys ∩ dom value).

(** ** Sample payloads *)

Definition a_work : instance := Instance "Work".
Definition a_manifestation : instance := Instance "Manifestation".
Definition a_right : instance := Instance "Right".
Definition a_copyright : instance := Instance "Copyright".
Definition data : attribute := Attribute "data".

Definition song : mapping :=
  {[ "name" := PyStr "Song A" ]}.

Definition song_of_work : mapping :=
  <[ "manifestationOfWork" := PyStr "abc123" ]> song.

Definition recording : mapping :=
  <[ "name" := PyStr "Recording" ]>
    (<[ "manifestationOfWork" := PyStr "abc123" ]>
       {[ "isManifestation" := PyBool true ]}).

Definition right_with_rights_of : mapping :=
  <[ "allowedBy" := PyStr "right-1" ]>
    (<[ "license" := PyStr "MIT" ]>
       {[ "rightsOf" := PyStr "work-9" ]}).

Definition derived_right : mapping :=
  <[ "allowedBy" := PyStr "right-1" ]> {[ "license" := PyStr "MIT" ]}.

Definition copyright_of_work : mapping :=
  {[ "rightsOf" := PyStr "work-9" ]}.

Definition copyright_allowed_by : mapping :=
  <[ "allowedBy" := PyStr "right-1" ]> copyright_of_work.

(** [lambda: None] *)
Definition a_lambda : pyval :=
  PyObj (PyObject "function" (Some 0) "<function <lambda>>").


(** A payload with the keys of a right and of a copyright. *)
Definition right_and_copyright : mapping :=
  <[ "allowedBy" := PyStr "right-1" ]> copyright_of_work.



(** An instance whose [validator] attribute holds [is_work_model] and
    which has no other attribute; the lookup of another one fails as a
    [__getattr__] of the class may make it fail. *)
Definition sibling_lookup : instance -> string -> M unit (validator unit) :=
  fun _ attr =>
    if String.eqb attr "validator" then ret is_work_model
    else raise (Exn KeyError ("'" +:+ attr +:+ "'")).

(** A validator that returns a value. *)
Definition answering : validator nat :=
  fun _ _ _ n => (Return (PyInt 1), S n).

(** A validator that counts its calls in the state. *)
Definition counting : validator nat :=
  fun _ _ _ n => (Return PyNone, S n).

(** * Proofs *)

(** ** The templates, formatted *)

(** [str.format] and [format(v, '')] on small inputs. *)

Example format_escapes :
  format "a{{b}}c{x}{}!" ["1"] [("x", "2")] = Return "a{b}c21!".
Proof. vm_compute. reflexivity. Qed.

Example format_missing_keyword :
  format "{x}{y}" [] [("x", "2")] = Raise (Exn KeyError "'y'").
Proof. vm_compute. reflexivity. Qed.

Example py_str_negative : py_str (PyInt (-42)) = "-42".
Proof. vm_compute. reflexivity. Qed.

Lemma append_empty_r (s : string) : s +:+ "" = s.
Proof.
  induction s as [|c s IH]; [reflexivity|].
  change (String c (s +:+ "") = String c s). by rewrite IH.
Qed.

Section Templates.

Variables attr cls given num keys : string.


Lemma format_forbidden :
  format
    ("Given keys ({num_matched} of {{avoid_keys}} " +:+
     "that must not be given in the '{attr}' of a " +:+
     "'{cls}'")
    []
    [("num_matched", num); ("avoid_keys", keys); ("attr", attr); ("cls", cls)]
  = Return (forbidden_msg num attr cls).
Proof. vm_compute. reflexivity. Qed.

Lemma format_name :
  format
    ("'name' must be given as a string in the '{attr}' " +:+
     "parameter of a '{cls}'. Given " +:+
     "'{value}'")
    []
    [("attr", attr); ("cls", cls); ("value", given)]
  = Return (not_string_msg "name" attr cls given).
Proof. vm_compute. reflexivity. Qed.

Lemma format_work_key :
  format
    ("'manifestationOfWork' must not be given in the '{attr}' " +:+
     "parameter of a '{cls}'")
    []
    [("attr", attr); ("cls", cls)]
  = Return (work_key_msg attr cls).
Proof. vm_compute. reflexivity. Qed.

Lemma format_not_false :
  format
    ("'isManifestation' must be False if given in the " +:+
     "'{attr}' parameter of a '{cls}'. Given " +:+
     "'{value}")
    []
    [("attr", attr); ("cls", cls); ("value", given)]
  = Return (not_false_msg attr cls given).
Proof.
  rewrite <- (append_empty_r given) at 2.
  vm_compute. reflexivity.
Qed.

Lemma format_manifestation_of :
  format
    ("'manifestationOfWork' must be given as a string in the " +:+
     "'{attr}' parameter of a '{cls}'. Given " +:+
     "'{value}'")
    []
    [("attr", attr); ("cls", cls); ("value", given)]
  = Return (not_string_msg "manifestationOfWork" attr cls given).
Proof. vm_compute. reflexivity. Qed.

Lemma format_not_true :
  format
    ("'isManifestation' must be True if given in the " +:+
     "'{attr}' parameter of a '{cls}'. Given " +:+
     "'{value}'")
    []
    [("attr", attr); ("cls", cls); ("value", given)]
  = Return (not_true_msg attr cls given).
Proof. vm_compute. reflexivity. Qed.

Lemma format_rights_of :
  format
    ("'rightsOf' must be given as a string in " +:+
     "the '{attr}' parameter of a '{cls}'. Given " +:+
     "'{value}'")
    []
    [("attr", attr); ("cls", cls); ("value", given)]
  = Return (not_string_msg "rightsOf" attr cls given).
Proof. vm_compute. reflexivity. Qed.

End Templates.

Lemma format_key (k attr cls given : string) :
  k = "allowedBy" \/ k = "license" ->
  format
    ("'{key}' must be given as a string in " +:+
     "the '{attr}' parameter of a '{cls}'. Given " +:+
     "'{value}'")
    []
    [("key", k); ("attr", attr); ("cls", cls); ("value", given)]
  = Return (not_string_msg k attr cls given).
Proof. intros [-> | ->]; vm_compute; reflexivity. Qed.

(** ** What each validator computes *)

Section Equations.

Context {S : Type}.
Implicit Types (inst : instance) (attr : attribute) (value : mapping) (s : S).

Ltac run := unfold bind, lift, raise, ret; cbv beta iota delta [negb].


Lemma does_not_contain_eq ks cls (func : validator S) inst attr value s :
  does_not_contain ks cls func inst attr value s =
  let n := size (list_to_set (C := gset string) ks ∩ dom value) in
  if (0 <? n)%nat then (Raise (forbidden_error cls n inst attr), s)
  else func inst attr value s.
Proof.
  unfold does_not_contain, forbidden_error. cbv zeta.
  destruct (0 <? _)%nat; run; [|done].
  by rewrite format_forbidden.
Qed.

Lemma is_creation_model_eq inst attr value s :
  is_creation_model inst attr value s =
  (let creation_name := dict_get value "name" PyNone in
   if isinstance_str creation_name then Return PyNone
   else Raise (not_string_error "name" inst attr creation_name), s).
Proof.
  unfold is_creation_model, not_string_error. cbv zeta.
  destruct (isinstance_str _); run; [done|].
  by rewrite format_name.
Qed.

Lemma is_work_model_eq inst attr value s :
  is_work_model inst attr value s =
  (let creation_name := dict_get value "name" PyNone in
   let is_manifestation := dict_get value "isManifestation" (PyBool false) in
   if isinstance_str creation_name then
     if dict_contains value "manifestationOfWork" then
       Raise (work_key_error inst attr)
     else if is_False is_manifestation then Return PyNone
     else Raise (not_false_error inst attr is_manifestation)
   else Raise (not_string_error "name" inst attr creation_name), s).
Proof.
  unfold is_work_model. cbv zeta. unfold bind at 1.
  rewrite is_creation_model_eq. cbv zeta.
  destruct (isinstance_str _); [|done].
  unfold work_key_error, not_false_error.
  destruct (dict_contains _ _); run.
  { by rewrite format_work_key. }
  destruct (is_False _); run; [done|].
  by rewrite format_not_false.
Qed.

Lemma is_manifestation_model_eq inst attr value s :
  is_manifestation_model inst attr value s =
  (let creation_name := dict_get value "name" PyNone in
   let manifestation_of := dict_get value "manifestationOfWork" PyNone in
   let is_manifestation := dict_get value "isManifestation" (PyBool true) in
   if isinstance_str creation_name then
     if isinstance_str manifestation_of then
       if is_True is_manifestation then Return PyNone
       else Raise (not_true_error inst attr is_manifestation)
     else Raise (not_string_error "manifestationOfWork" inst attr manifestation_of)
   else Raise (not_string_error "name" inst attr creation_name), s).
Proof.
  unfold is_manifestation_model. cbv zeta. unfold bind at 1.
  rewrite is_creation_model_eq. cbv zeta.
  destruct (isinstance_str (dict_get value "name" PyNone)); [|done].
  unfold not_string_error, not_true_error.
  destruct (isinstance_str _); run.
  2: { by rewrite format_manifestation_of. }
  destruct (is_True _); run; [done|].
  by rewrite format_not_true.
Qed.

Lemma is_right_model_body_eq inst attr value s :
  is_right_model_body inst attr value s =
  (let allowed_by := dict_get value "allowedBy" PyNone in
   let license := dict_get value "license" PyNone in
   if isinstance_str allowed_by then
     if isinstance_str license then Return PyNone
     else Raise (not_string_error "license" inst attr license)
   else Raise (not_string_error "allowedBy" inst attr allowed_by), s).
Proof.
  unfold is_right_model_body, not_string_error. cbv zeta.
  unfold for_each.
  destruct (isinstance_str (dict_get value "allowedBy" PyNone)); run.
  2: { rewrite format_key; [done | by left]. }
  destruct (isinstance_str _); run; [done|].
  rewrite format_key; [done | by right].
Qed.

Lemma is_copyright_model_body_eq inst attr value s :
  is_copyright_model_body inst attr value s =
  (let rights_of := dict_get value "rightsOf" PyNone in
   if isinstance_str rights_of then Return PyNone
   else Raise (not_string_error "rightsOf" inst attr rights_of), s).
Proof.
  unfold is_copyright_model_body, not_string_error. cbv zeta.
  destruct (isinstance_str _); run; [done|].
  by rewrite format_rights_of.
Qed.

End Equations.

(** ** Outcomes, fields and matched keys *)

Lemma holds_string_get (value : mapping) (key : string) :
  isinstance_str (dict_get value key PyNone) = true <-> holds_string value key.
Proof.
  unfold dict_get, holds_string. split.
  - destruct (value !! key) as [x|]; [eauto | discriminate].
  - by intros (x & -> & Hx).
Qed.

Lemma not_holds_string_get (value : mapping) (key : string) :
  isinstance_str (dict_get value key PyNone) = false <-> ~ holds_string value key.
Proof.
  rewrite <- holds_string_get. by destruct (isinstance_str _).
Qed.

Lemma is_False_get (value : mapping) (key : string) :
  is_False (dict_get value key (PyBool false)) = true <->
  value !! key = None \/ value !! key = Some (PyBool false).
Proof.
  unfold dict_get.
  destruct (value !! key) as [[| [] | | | |]|]; cbn; naive_solver.
Qed.

Lemma is_True_get (value : mapping) (key : string) :
  is_True (dict_get value key (PyBool true)) = true <->
  value !! key = None \/ value !! key = Some (PyBool true).
Proof.
  unfold dict_get.
  destruct (value !! key) as [[| [] | | | |]|]; cbn; naive_solver.
Qed.

Lemma dict_contains_true (value : mapping) (key : string) :
  dict_contains value key = true <-> is_Some (value !! key).
Proof.
  unfold dict_contains. by rewrite bool_decide_eq_true, elem_of_dom.
Qed.

Lemma dict_contains_false (value : mapping) (key : string) :
  dict_contains value key = false <-> value !! key = None.
Proof.
  unfold dict_contains.
  by rewrite bool_decide_eq_false, not_elem_of_dom.
Qed.

Lemma matched_keys_pos (ks : list string) (value : mapping) :
  (0 <? size (list_to_set (C := gset string) ks ∩ dom value))%nat = true <->
  exists k, k ∈ ks /\ is_Some (value !! k).
Proof.
  rewrite Nat.ltb_lt. split.
  - intros Hpos. apply size_pos_elem_of in Hpos as [k Hk].
    exists k. apply elem_of_intersection in Hk as [Hk1 Hk2].
    by rewrite elem_of_list_to_set in Hk1; rewrite elem_of_dom in Hk2.
  - intros (k & Hk1 & Hk2).
    assert (size (list_to_set (C := gset string) ks ∩ dom value) ≠ 0); [|lia].
    apply size_non_empty_iff. intros Hempty.
    apply (not_elem_of_empty (C := gset string) k). rewrite <- Hempty.
    apply elem_of_intersection.
    by rewrite elem_of_list_to_set, elem_of_dom.
Qed.

Lemma matched_keys_single (k : string) (value : mapping) :
  size (list_to_set (C := gset string) [k] ∩ dom value) =
  if dict_contains value k then 1 else 0.
Proof.
  unfold dict_contains. case_bool_decide as Hk.
  - replace (list_to_set [k] ∩ dom value) with ({[ k ]} : gset string)
      by set_solver.
    apply size_singleton.
  - replace (list_to_set [k] ∩ dom value) with (∅ : gset string)
      by set_solver.
    apply size_empty.
Qed.

(** ** The forbidden-keys decorator *)

Section Decorator.

Context {S : Type}.
Implicit Types (inst : instance) (attr : attribute) (value : mapping) (s : S).

(** With a forbidden key in the mapping the decorated validator raises the
    configured class, and neither its result nor the state depends on the
    wrapped function: that function is not run. *)
Lemma does_not_contain_raises ks cls (func : validator S) inst attr value s :
  (exists k, k ∈ ks /\ is_Some (value !! k)) ->
  does_not_contain ks cls func inst attr value s =
  (Raise (forbidden_error cls
            (size (list_to_set (C := gset string) ks ∩ dom value)) inst attr), s).
Proof.
  intros Hk. rewrite does_not_contain_eq. cbv zeta.
  apply matched_keys_pos in Hk. by rewrite Hk.
Qed.


Lemma does_not_contain_single_present k cls (func : validator S) inst attr value s :
  is_Some (value !! k) ->
  does_not_contain [k] cls func inst attr value s =
  (Raise (forbidden_error cls 1 inst attr), s).
Proof.
  intros Hk. rewrite does_not_contain_raises.
  - rewrite matched_keys_single.
    apply dict_contains_true in Hk. by rewrite Hk.
  - exists k. split; [set_solver | done].
Qed.


End Decorator.

(** ** The creation family *)

Section Creation.

Context {S : Type}.
Implicit Types (inst : instance) (attr : attribute) (value : mapping) (s : S).




End Creation.

(** ** The right family *)

Section Rights.

Context {S : Type}.
Implicit Types (inst : instance) (attr : attribute) (value : mapping) (s : S).



End Rights.

(** ** Identity with [True] and [False], and the type of a string field *)

Lemma prefix_append (n b : string) : String.prefix n (n +:+ b) = true.
Proof.
  induction n as [|c n IH]; [by destruct b|].
  change (String c n +:+ b) with (String c (n +:+ b)). cbn.
  by destruct (ascii_dec c c).
Qed.


Section Fields.

Context {S : Type}.
Implicit Types (inst : instance) (attr : attribute) (value : mapping) (s : S).

(** C7.  The ['isManifestation'] checks compare by identity: on a mapping
    that satisfies the rest of [is_work_model] the call returns [None]
    only when the value is [False] itself, on one that satisfies the rest
    of [is_manifestation_model] only when it is [True] itself; [1], [0]
    and ["true"], which a coercion would read as a boolean, make both
    raise a [ModelDataError]. *)
Theorem isManifestation_identity inst attr value s x :
  value !! "isManifestation" = Some x ->
  holds_string value "name" ->
  (value !! "manifestationOfWork" = None ->
   (passes (is_work_model inst attr value s) <-> x = PyBool false) /\
   (x ∈ [PyInt 1; PyInt 0; PyStr "true"] ->
    is_work_model inst attr value s = (Raise (not_false_error inst attr x), s) /\
    raises ModelDataError (is_work_model inst attr value s))) /\
  (holds_string value "manifestationOfWork" ->
   (passes (is_manifestation_model inst attr value s) <-> x = PyBool true) /\
   (x ∈ [PyInt 1; PyInt 0; PyStr "true"] ->
    is_manifestation_model inst attr value s =
      (Raise (not_true_error inst attr x), s) /\
    raises ModelDataError (is_manifestation_model inst attr value s))) /\
  (x ∈ [PyInt 1; PyInt 0; PyStr "true"] -> exists b, truthy x = Some b) /\
  truthy (PyInt 1) = truthy (PyBool true) /\
  truthy (PyInt 0) = truthy (PyBool false) /\
  truthy (PyStr "true") = truthy (PyBool true).
Proof.
  intros His Hname. apply holds_string_get in Hname.
  split; [|split; [|split; [|done]]].
  - intros Hof. apply dict_contains_false in Hof.
    rewrite is_work_model_eq. cbv zeta.
    rewrite Hname, Hof. unfold dict_get. rewrite His. cbn.
    split.
    + unfold passes. destruct x as [| [] | | | |]; cbn; naive_solver.
    + intros Hx. apply list_elem_of_In in Hx.
      destruct Hx as [<- | [<- | [<- | []]]]; cbn; split; try done; by eexists.
  - intros Hof. apply holds_string_get in Hof.
    rewrite is_manifestation_model_eq. cbv zeta.
    rewrite Hname, Hof. unfold dict_get. rewrite His. cbn.
    split.
    + unfold passes. destruct x as [| [] | | | |]; cbn; naive_solver.
    + intros Hx. apply list_elem_of_In in Hx.
      destruct Hx as [<- | [<- | [<- | []]]]; cbn; split; try done; by eexists.
  - intros Hx. apply list_elem_of_In in Hx.
    destruct Hx as [<- | [<- | [<- | []]]]; cbn; eauto.
Qed.




End Fields.

(** ** The keys a validator reads *)

Lemma agree_on_get keys (v1 v2 : mapping) k d :
  agree_on keys v1 v2 -> k ∈ keys -> dict_get v1 k d = dict_get v2 k d.
Proof. intros H Hk. unfold dict_get. by rewrite (H k Hk). Qed.

Lemma agree_on_contains keys (v1 v2 : mapping) k :
  agree_on keys v1 v2 -> k ∈ keys -> dict_contains v1 k = dict_contains v2 k.
Proof.
  intros H Hk. unfold dict_contains.
  apply bool_decide_ext. by rewrite !elem_of_dom, (H k Hk).
Qed.

Lemma agree_on_insert keys (v : mapping) k x :
  k ∉ keys -> agree_on keys (<[k := x]> v) v.
Proof.
  intros Hk k' Hk'. apply lookup_insert_ne. by intros ->.
Qed.

Lemma agree_on_delete keys (v : mapping) k :
  k ∉ keys -> agree_on keys (delete k v) v.
Proof.
  intros Hk k' Hk'. apply lookup_delete_ne. by intros ->.
Qed.

Lemma reads_only_ignores {S} keys (f : validator S) :
  reads_only keys f -> ignores_other_keys keys f.
Proof.
  intros Hf inst attr v s k x Hk. split; apply Hf.
  - by apply agree_on_insert.
  - by apply agree_on_delete.
Qed.

Section Keys.

Context {S : Type}.

Ltac same_fields H :=
  repeat rewrite (agree_on_get _ _ _ _ _ H)
    by (unfold creation_keys, right_keys; set_solver);
  repeat rewrite (agree_on_contains _ _ _ _ H)
    by (unfold creation_keys, right_keys; set_solver).

Lemma is_creation_model_reads : reads_only creation_keys (@is_creation_model S).
Proof.
  intros inst attr v1 v2 s H. rewrite !is_creation_model_eq. cbv zeta.
  by same_fields H.
Qed.

Lemma is_work_model_reads : reads_only creation_keys (@is_work_model S).
Proof.
  intros inst attr v1 v2 s H. rewrite !is_work_model_eq. cbv zeta.
  by same_fields H.
Qed.

Lemma is_manifestation_model_reads :
  reads_only creation_keys (@is_manifestation_model S).
Proof.
  intros inst attr v1 v2 s H. rewrite !is_manifestation_model_eq. cbv zeta.
  by same_fields H.
Qed.

Lemma is_right_model_reads : reads_only right_keys (@is_right_model S).
Proof.
  intros inst attr v1 v2 s H. unfold is_right_model.
  rewrite !does_not_contain_eq. cbv zeta.
  rewrite !matched_keys_single, !is_right_model_body_eq. cbv zeta.
  by same_fields H.
Qed.

Lemma is_copyright_model_reads : reads_only right_keys (@is_copyright_model S).
Proof.
  intros inst attr v1 v2 s H. unfold is_copyright_model.
  rewrite !does_not_contain_eq. cbv zeta.
  rewrite !matched_keys_single, !is_copyright_model_body_eq. cbv zeta.
  by same_fields H.
Qed.

(** C10.  The outcome of each entity-shape validator is a function of what
    the mapping holds at the keys of its family: on two mappings that
    agree there (same presence, same value) it is the same outcome, and
    setting or deleting any other key leaves it as it was. *)
Theorem validators_read_only_their_keys :
  (reads_only creation_keys (@is_creation_model S) /\
   reads_only creation_keys (@is_work_model S) /\
   reads_only creation_keys (@is_manifestation_model S) /\
   reads_only right_keys (@is_right_model S) /\
   reads_only right_keys (@is_copyright_model S)) /\
  (ignores_other_keys creation_keys (@is_creation_model S) /\
   ignores_other_keys creation_keys (@is_work_model S) /\
   ignores_other_keys creation_keys (@is_manifestation_model S) /\
   ignores_other_keys right_keys (@is_right_model S) /\
   ignores_other_keys right_keys (@is_copyright_model S)).
Proof.
  split.
  - exact (conj is_creation_model_reads (conj is_work_model_reads
      (conj is_manifestation_model_reads
         (conj is_right_model_reads is_copyright_model_reads)))).
  - split; [|split; [|split; [|split]]]; apply reads_only_ignores.
    + exact is_creation_model_reads.
    + exact is_work_model_reads.
    + exact is_manifestation_model_reads.
    + exact is_right_model_reads.
    + exact is_copyright_model_reads.
Qed.

End Keys.

(** ** The scenarios *)

Example scenario_1 :
  is_work_model a_work data song tt = (Return PyNone, tt).
Proof. vm_compute. reflexivity. Qed.

Example scenario_2 :
  is_work_model a_work data song_of_work tt =
  (Raise (Exn ModelDataError
     "'manifestationOfWork' must not be given in the 'data' parameter of a 'Work'"),
   tt).
Proof. vm_compute. reflexivity. Qed.

Example scenario_3 :
  is_manifestation_model a_manifestation data recording tt = (Return PyNone, tt).
Proof. vm_compute. reflexivity. Qed.

Example scenario_4 :
  raises ModelDataError (is_right_model a_right data right_with_rights_of tt) /\
  forall func : validator unit,
    does_not_contain ["rightsOf"] ModelDataError func a_right data
      right_with_rights_of tt =
    is_right_model a_right data right_with_rights_of tt.
Proof.
  split; [eexists; vm_compute; reflexivity|].
  intros func. unfold is_right_model.
  rewrite !does_not_contain_single_present; [done | | ];
    exists (PyStr "work-9"); vm_compute; reflexivity.
Qed.

Example scenario_5 :
  is_copyright_model a_copyright data copyright_of_work tt = (Return PyNone, tt) /\
  raises ModelDataError
    (is_copyright_model a_copyright data copyright_allowed_by tt).
Proof. split; [|eexists]; vm_compute; reflexivity. Qed.

Example scenario_6 :
  is_callable a_work data (PyInt 42) tt =
    (Raise (Exn TypeError "'data' must be callable"), tt) /\
  is_callable a_work data a_lambda tt = (Return PyNone, tt).
Proof. split; vm_compute; reflexivity. Qed.

(** The wrapped validator is not run when a forbidden key is found: a
    validator that counts its calls leaves the count at zero. *)
Example counting_not_called :
  does_not_contain ["rightsOf"] ValueError counting a_right data
    right_with_rights_of 0 =
  (Raise (Exn ValueError
     "Given keys (1 of {avoid_keys} that must not be given in the 'data' of a 'Right'"),
   0) /\
  does_not_contain ["rightsOf"] ValueError counting a_right data
    derived_right 0 = (Return PyNone, 1).
Proof. split; vm_compute; reflexivity. Qed.

(** C6.  The message of the forbidden-keys decorator, on the mapping of
    Scenario 4: the exception is of the configured class and its message
    holds the number of forbidden keys found, the name of the attribute
    and the name of the class, but the text [{avoid_keys}] where the
    names of the keys were to be; ['rightsOf'], the key found, is nowhere
    in it. *)
Theorem does_not_contain_message :
  is_right_model a_right data right_with_rights_of tt =
  (Raise (Exn ModelDataError
     "Given keys (1 of {avoid_keys} that must not be given in the 'data' of a 'Right'"),
   tt) /\
  str_contains "rightsOf"
    "Given keys (1 of {avoid_keys} that must not be given in the 'data' of a 'Right'"
  = false /\
  join ", " ["rightsOf"] = "rightsOf".
Proof. repeat split; vm_compute; reflexivity. Qed.


(** ** The theorems at the sample payloads *)

Ltac holds x := exists x; split; vm_compute; reflexivity.






Lemma isManifestation_identity_witness :
  let value : mapping := <[ "isManifestation" := PyInt 1 ]> song in
  value !! "isManifestation" = Some (PyInt 1) /\
  holds_string value "name" /\
  value !! "manifestationOfWork" = None /\
  PyInt 1 ∈ [PyInt 1; PyInt 0; PyStr "true"] /\
  raises ModelDataError (is_work_model a_work data value tt).
Proof.
  intros value.
  assert (H1 : value !! "isManifestation" = Some (PyInt 1))
    by (vm_compute; reflexivity).
  assert (H2 : holds_string value "name") by holds (PyStr "Song A").
  assert (H3 : value !! "manifestationOfWork" = None)
    by (vm_compute; reflexivity).
  assert (H4 : PyInt 1 ∈ [PyInt 1; PyInt 0; PyStr "true"])
    by (apply list_elem_of_here).
  exact (conj H1 (conj H2 (conj H3 (conj H4
    (proj2 (proj2 (proj1
       (isManifestation_identity a_work data value tt (PyInt 1) H1 H2) H3)
       H4)))))).
Defined.



Lemma validators_read_only_their_keys_witness :
  ("comment" ∉ creation_keys) /\
  is_work_model a_work data (<[ "comment" := PyInt 7 ]> song) tt =
    is_work_model a_work data song tt /\
  is_work_model a_work data (delete "comment" song_of_work) tt =
    is_work_model a_work data song_of_work tt.
Proof.
  assert (H1 : "comment" ∉ creation_keys)
    by (unfold creation_keys; set_solver).
  exact (conj H1 (conj
    (proj1 (proj1 (proj2 (proj2 (@validators_read_only_their_keys unit)))
       a_work data song tt "comment" (PyInt 7) H1))
    (proj2 (proj1 (proj2 (proj2 (@validators_read_only_their_keys unit)))
       a_work data song_of_work tt "comment" (PyInt 7) H1)))).
Defined.

(** * Further properties of the validators *)

(** ** Text within a message *)

Lemma append_cons (c : ascii) (a b : string) :
  String c a +:+ b = String c (a +:+ b).
Proof. reflexivity. Qed.

Lemma prefix_empty (a : string) : String.prefix "" a = true.
Proof. by destruct a. Qed.

Lemma prefix_append_l (n a b : string) :
  String.prefix n a = true -> String.prefix n (a +:+ b) = true.
Proof.
  revert a. induction n as [|c n IH]; intros a Hpre.
  - apply prefix_empty.
  - destruct a as [|c' a]; [discriminate|].
    rewrite append_cons. cbn in *.
    destruct (ascii_dec c c'); [by apply IH | discriminate].
Qed.

Lemma str_contains_self (n : string) : str_contains n n = true.
Proof.
  pose proof (prefix_append n "") as Hpre. rewrite append_empty_r in Hpre.
  destruct n; cbn [str_contains]; by rewrite Hpre.
Qed.

Lemma str_contains_append_l (n a b : string) :
  str_contains n a = true -> str_contains n (a +:+ b) = true.
Proof.
  induction a as [|c a IH]; cbn [str_contains].
  - rewrite orb_false_r. intros Hpre.
    destruct n; [|discriminate].
    change ("" +:+ b) with b. destruct b; reflexivity.
  - intros [Hpre | Hin]%orb_true_iff; rewrite append_cons; cbn [str_contains].
    + apply (prefix_append_l _ _ b) in Hpre. rewrite append_cons in Hpre.
      by rewrite Hpre.
    + rewrite (IH Hin). apply orb_true_r.
Qed.

Lemma str_contains_append_r (n a b : string) :
  str_contains n b = true -> str_contains n (a +:+ b) = true.
Proof.
  intros Hin. induction a as [|c a IH]; [done|].
  rewrite append_cons. cbn [str_contains]. rewrite IH. apply orb_true_r.
Qed.

(** [n] is one of the pieces of a message written as pieces appended. *)
Ltac in_message :=
  first
    [ apply str_contains_self
    | apply str_contains_append_l; apply str_contains_self
    | apply str_contains_append_r; in_message ].

(** ** When each validator returns *)

Section Accepted.

Context {S : Type}.
Implicit Types (inst : instance) (attr : attribute) (value : mapping) (s : S).

Lemma is_creation_model_passes inst attr value s :
  passes (is_creation_model inst attr value s) <-> holds_string value "name".
Proof.
  rewrite is_creation_model_eq, <- holds_string_get. cbv zeta. unfold passes.
  destruct (isinstance_str _); cbn; naive_solver.
Qed.

Lemma is_work_model_passes inst attr value s :
  passes (is_work_model inst attr value s) <->
  holds_string value "name" /\
  value !! "manifestationOfWork" = None /\
  (value !! "isManifestation" = None \/
   value !! "isManifestation" = Some (PyBool false)).
Proof.
  rewrite is_work_model_eq. cbv zeta.
  rewrite <- holds_string_get, <- dict_contains_false, <- is_False_get.
  unfold passes.
  destruct (isinstance_str _); destruct (dict_contains _ _);
    destruct (is_False _); cbn; naive_solver.
Qed.

Lemma is_manifestation_model_passes inst attr value s :
  passes (is_manifestation_model inst attr value s) <->
  holds_string value "name" /\
  holds_string value "manifestationOfWork" /\
  (value !! "isManifestation" = None \/
   value !! "isManifestation" = Some (PyBool true)).
Proof.
  rewrite is_manifestation_model_eq. cbv zeta.
  rewrite <- !holds_string_get, <- is_True_get. unfold passes.
  destruct (isinstance_str (dict_get value "name" PyNone));
    destruct (isinstance_str (dict_get value "manifestationOfWork" PyNone));
    destruct (is_True _); cbn; naive_solver.
Qed.

Lemma is_right_model_passes inst attr value s :
  passes (is_right_model inst attr value s) <->
  value !! "rightsOf" = None /\
  holds_string value "allowedBy" /\ holds_string value "license".
Proof.
  unfold is_right_model. rewrite does_not_contain_eq. cbv zeta.
  rewrite matched_keys_single, is_right_model_body_eq. cbv zeta.
  rewrite <- !holds_string_get, <- dict_contains_false. unfold passes.
  destruct (dict_contains _ _);
    destruct (isinstance_str (dict_get value "allowedBy" PyNone));
    destruct (isinstance_str (dict_get value "license" PyNone));
    cbn; naive_solver.
Qed.

Lemma is_copyright_model_passes inst attr value s :
  passes (is_copyright_model inst attr value s) <->
  value !! "allowedBy" = None /\ holds_string value "rightsOf".
Proof.
  unfold is_copyright_model. rewrite does_not_contain_eq. cbv zeta.
  rewrite matched_keys_single, is_copyright_model_body_eq. cbv zeta.
  rewrite <- holds_string_get, <- dict_contains_false. unfold passes.
  destruct (dict_contains _ _); destruct (isinstance_str _);
    cbn; naive_solver.
Qed.

Lemma holds_string_is_Some value key :
  holds_string value key -> is_Some (value !! key).
Proof. intros (x & Hx & _). by exists x. Qed.

Lemma holds_string_insert value key x :
  isinstance_str x = true -> holds_string (<[key := x]> value) key.
Proof. intros Hx. exists x. by rewrite lookup_insert_eq. Qed.

Lemma holds_string_insert_ne value key key' x :
  key' <> key ->
  holds_string (<[key' := x]> value) key <-> holds_string value key.
Proof. intros Hne. unfold holds_string. by rewrite lookup_insert_ne. Qed.

Lemma holds_string_delete_ne value key key' :
  key' <> key ->
  holds_string (delete key' value) key <-> holds_string value key.
Proof. intros Hne. unfold holds_string. by rewrite lookup_delete_ne. Qed.

End Accepted.

(** ** The two families of payloads *)

Section Hierarchy.

Context {S : Type}.
Implicit Types (inst : instance) (attr : attribute) (value : mapping) (s : S).

(** X1.  No payload is both a work and a manifestation: whatever the
    instances and attributes, [is_work_model] and
    [is_manifestation_model] never both return on the same mapping. *)
Theorem work_manifestation_exclusive inst1 attr1 inst2 attr2 value s1 s2 :
  ~ (passes (is_work_model inst1 attr1 value s1) /\
     passes (is_manifestation_model inst2 attr2 value s2)).
Proof.
  rewrite is_work_model_passes, is_manifestation_model_passes.
  intros [(_ & Hnone & _) (_ & (x & Hx & _) & _)]. congruence.
Qed.

(** X2.  Works and manifestations are creations: a mapping that
    [is_work_model] or [is_manifestation_model] accepts is accepted by
    [is_creation_model], and on a mapping that [is_creation_model]
    rejects both give its outcome, exception and message included. *)
Theorem work_and_manifestation_are_creations inst attr value s :
  (passes (is_work_model inst attr value s) ->
   passes (is_creation_model inst attr value s)) /\
  (passes (is_manifestation_model inst attr value s) ->
   passes (is_creation_model inst attr value s)) /\
  (~ passes (is_creation_model inst attr value s) ->
   is_work_model inst attr value s = is_creation_model inst attr value s /\
   is_manifestation_model inst attr value s =
     is_creation_model inst attr value s).
Proof.
  rewrite is_work_model_passes, is_manifestation_model_passes,
    is_creation_model_passes.
  split; [tauto | split; [tauto |]].
  intros Hname. apply not_holds_string_get in Hname.
  rewrite is_work_model_eq, is_manifestation_model_eq, is_creation_model_eq.
  cbv zeta. by rewrite Hname.
Qed.

(** X3.  No payload is both a right and a copyright: [is_right_model] and
    [is_copyright_model] never both return on the same mapping, and a
    mapping with both ['allowedBy'] and ['rightsOf'] makes each raise the
    error of its decorator. *)
Theorem right_copyright_exclusive inst1 attr1 inst2 attr2 value s1 s2 :
  ~ (passes (is_right_model inst1 attr1 value s1) /\
     passes (is_copyright_model inst2 attr2 value s2)) /\
  (is_Some (value !! "allowedBy") -> is_Some (value !! "rightsOf") ->
   is_right_model inst1 attr1 value s1 =
     (Raise (forbidden_error ModelDataError 1 inst1 attr1), s1) /\
   is_copyright_model inst2 attr2 value s2 =
     (Raise (forbidden_error ModelDataError 1 inst2 attr2), s2)).
Proof.
  split.
  - rewrite is_right_model_passes, is_copyright_model_passes.
    intros [(Hnone & _) (_ & (x & Hx & _))]. congruence.
  - intros Hby Hof. unfold is_right_model, is_copyright_model.
    by rewrite !does_not_contain_single_present.
Qed.

(** X4.  A work becomes a manifestation, and back: from a mapping that
    [is_work_model] accepts, setting ['manifestationOfWork'] to a string
    and ['isManifestation'] to [True], or deleting it, gives one that
    [is_manifestation_model] accepts; from one that
    [is_manifestation_model] accepts, deleting both keys gives one that
    [is_work_model] accepts. *)
Theorem work_to_manifestation_and_back inst attr value s :
  (passes (is_work_model inst attr value s) ->
   forall w, isinstance_str w = true ->
   passes (is_manifestation_model inst attr
             (<[ "manifestationOfWork" := w ]>
                (<[ "isManifestation" := PyBool true ]> value)) s) /\
   passes (is_manifestation_model inst attr
             (<[ "manifestationOfWork" := w ]>
                (delete "isManifestation" value)) s)) /\
  (passes (is_manifestation_model inst attr value s) ->
   passes (is_work_model inst attr
             (delete "manifestationOfWork"
                (delete "isManifestation" value)) s)).
Proof.
  split.
  - rewrite is_work_model_passes. intros (Hname & _ & _) w Hw.
    rewrite !is_manifestation_model_passes. split.
    + split; [|split].
      * by rewrite !holds_string_insert_ne.
      * by apply holds_string_insert.
      * right. rewrite lookup_insert_ne by done. by rewrite lookup_insert_eq.
    + split; [|split].
      * by rewrite holds_string_insert_ne, holds_string_delete_ne.
      * by apply holds_string_insert.
      * left. rewrite lookup_insert_ne by done. by rewrite lookup_delete_eq.
  - rewrite is_manifestation_model_passes, is_work_model_passes.
    intros (Hname & _ & _). split; [|split].
    + by rewrite !holds_string_delete_ne.
    + by rewrite lookup_delete_eq.
    + left. rewrite lookup_delete_ne by done. by rewrite lookup_delete_eq.
Qed.

End Hierarchy.

(** ** The order of the checks and what the messages hold *)

Section Reports.

Context {S : Type}.
Implicit Types (inst : instance) (attr : attribute) (value : mapping) (s : S).







End Reports.

(** ** A field that holds [None] *)

Lemma dict_get_none_or_missing (value : mapping) (key key' : string) d :
  key' <> key \/ d = PyNone ->
  dict_get (<[key := PyNone]> value) key' d = dict_get (delete key value) key' d.
Proof.
  unfold dict_get. destruct (decide (key' = key)) as [-> | Hne].
  - intros [? | ->]; [done|]. by rewrite lookup_insert_eq, lookup_delete_eq.
  - intros _. by rewrite lookup_insert_ne, lookup_delete_ne.
Qed.

Lemma dict_contains_none_or_missing (value : mapping) (key key' : string) :
  key' <> key ->
  dict_contains (<[key := PyNone]> value) key' =
  dict_contains (delete key value) key'.
Proof.
  intros Hne. unfold dict_contains. apply bool_decide_ext.
  by rewrite !elem_of_dom, lookup_insert_ne, lookup_delete_ne.
Qed.

Section NoneFields.

Context {S : Type}.
Implicit Types (inst : instance) (attr : attribute) (value : mapping) (s : S).

Ltac none_fields :=
  repeat rewrite (dict_get_none_or_missing _ _ _ _) by first [by left | by right];
  repeat rewrite (dict_contains_none_or_missing _ _ _) by done;
  reflexivity.

(** X9.  A string field that holds [None] is handled as a missing one:
    each validator gives the same outcome, exception and message
    included, on a mapping where one of its string fields is [None] and
    on the mapping without that key. *)
Theorem none_field_is_missing inst attr value s :
  is_creation_model inst attr (<[ "name" := PyNone ]> value) s =
    is_creation_model inst attr (delete "name" value) s /\
  is_work_model inst attr (<[ "name" := PyNone ]> value) s =
    is_work_model inst attr (delete "name" value) s /\
  is_manifestation_model inst attr (<[ "name" := PyNone ]> value) s =
    is_manifestation_model inst attr (delete "name" value) s /\
  is_manifestation_model inst attr
      (<[ "manifestationOfWork" := PyNone ]> value) s =
    is_manifestation_model inst attr (delete "manifestationOfWork" value) s /\
  is_right_model inst attr (<[ "allowedBy" := PyNone ]> value) s =
    is_right_model inst attr (delete "allowedBy" value) s /\
  is_right_model inst attr (<[ "license" := PyNone ]> value) s =
    is_right_model inst attr (delete "license" value) s /\
  is_copyright_model inst attr (<[ "rightsOf" := PyNone ]> value) s =
    is_copyright_model inst attr (delete "rightsOf" value) s.
Proof.
  unfold is_right_model, is_copyright_model.
  rewrite !is_creation_model_eq, !is_work_model_eq,
    !is_manifestation_model_eq, !does_not_contain_eq, !matched_keys_single,
    !is_right_model_body_eq, !is_copyright_model_body_eq.
  cbv zeta.
  repeat split; none_fields.
Qed.

End NoneFields.

(** ** The forbidden-keys decorator, in general *)

Lemma matched_keys_nil (value : mapping) : matched_keys [] value = 0.
Proof.
  unfold matched_keys.
  replace (list_to_set [] ∩ dom value) with (∅ : gset string) by set_solver.
  apply size_empty.
Qed.

Lemma matched_keys_cons (k : string) (ks : list string) (value : mapping) :
  k ∉ ks ->
  matched_keys (k :: ks) value =
  (if dict_contains value k then 1 else 0) + matched_keys ks value.
Proof.
  intros Hk. unfold matched_keys. rewrite list_to_set_cons.
  rewrite intersection_union_r_L, size_union.
  - f_equal. rewrite <- matched_keys_single. f_equal. set_solver.
  - intros k' [Hk1 _]%elem_of_intersection [Hk2 _]%elem_of_intersection.
    apply elem_of_singleton in Hk1 as ->.
    by apply elem_of_list_to_set in Hk2.
Qed.

Lemma matched_keys_le_length (ks : list string) (value : mapping) :
  matched_keys ks value <= length ks.
Proof.
  unfold matched_keys.
  transitivity (size (list_to_set (C := gset string) ks)).
  { apply subseteq_size. set_solver. }
  induction ks as [|k ks IH]; [by rewrite list_to_set_nil, size_empty|].
  rewrite list_to_set_cons, size_union_alt, size_singleton. cbn.
  apply le_n_S. etransitivity; [|exact IH].
  apply subseteq_size. set_solver.
Qed.

Lemma matched_keys_le_size (ks : list string) (value : mapping) :
  matched_keys ks value <= size value.
Proof.
  unfold matched_keys. rewrite <- (size_dom (D := gset string) value).
  apply subseteq_size. set_solver.
Qed.

Lemma matched_keys_zero (ks : list string) (value : mapping) :
  matched_keys ks value = 0 <-> forall k, k ∈ ks -> value !! k = None.
Proof.
  pose proof (matched_keys_pos ks value) as Hpos. fold (matched_keys ks value) in Hpos.
  rewrite Nat.ltb_lt in Hpos. split.
  - intros Hzero k Hk. destruct (value !! k) as [x|] eqn:Hx; [|done].
    assert (0 < matched_keys ks value); [|lia].
    apply Hpos. exists k. by rewrite Hx.
  - intros Hnone. destruct (matched_keys ks value) as [|n] eqn:Hn; [done|].
    destruct Hpos as [(k & Hk & [x Hx]) _]; [lia|].
    rewrite (Hnone k Hk) in Hx. discriminate.
Qed.

Section DecoratorLaws.

Context {S : Type}.
Implicit Types (inst : instance) (attr : attribute) (value : mapping) (s : S).

Lemma does_not_contain_cases ks cls (func : validator S) inst attr value s :
  does_not_contain ks cls func inst attr value s =
  match matched_keys ks value with
  | 0 => func inst attr value s
  | n => (Raise (forbidden_error cls n inst attr), s)
  end.
Proof.
  rewrite does_not_contain_eq. cbv zeta. fold (matched_keys ks value).
  by destruct (matched_keys ks value).
Qed.

Lemma does_not_contain_passes ks cls (func : validator S) inst attr value s :
  passes (does_not_contain ks cls func inst attr value s) <->
  (forall k, k ∈ ks -> value !! k = None) /\
  passes (func inst attr value s).
Proof.
  rewrite does_not_contain_cases, <- matched_keys_zero.
  destruct (matched_keys ks value); unfold passes; cbn; naive_solver.
Qed.

(** X10.  The decorator of [does_not_contain], on every list of keys,
    class of exception and wrapped function.  When the mapping has one of
    the keys it raises an exception of the class given, whose message
    holds how many of the keys the mapping has, the name of the attribute
    and the name of the class of the instance; the outcome and the state
    are the same whatever the wrapped function, which is not run.  When
    the mapping has none of the keys the outcome is the one of the
    wrapped function on the same arguments.  The number is at least one,
    and at most the number of keys listed and the size of the mapping. *)
Theorem does_not_contain_spec ks cls (func : validator S) inst attr value s :
  ((exists k, k ∈ ks /\ is_Some (value !! k)) ->
   let n := matched_keys ks value in
   let msg := forbidden_msg (pretty n) (name attr) (class_name inst) in
   does_not_contain ks cls func inst attr value s = (Raise (Exn cls msg), s) /\
   (forall other : validator S,
      does_not_contain ks cls other inst attr value s =
      does_not_contain ks cls func inst attr value s) /\
   str_contains (pretty n) msg = true /\
   str_contains (name attr) msg = true /\
   str_contains (class_name inst) msg = true /\
   1 <= n <= length ks /\ n <= size value) /\
  ((forall k, k ∈ ks -> value !! k = None) ->
   does_not_contain ks cls func inst attr value s = func inst attr value s).
Proof.
  split.
  - intros Hk. cbv zeta.
    pose proof (matched_keys_le_length ks value).
    pose proof (matched_keys_le_size ks value).
    apply matched_keys_pos in Hk. fold (matched_keys ks value) in Hk.
    apply Nat.ltb_lt in Hk.
    rewrite does_not_contain_cases.
    destruct (matched_keys ks value) as [|n] eqn:Hn; [lia|].
    split; [done|]. split.
    { intros other. by rewrite does_not_contain_cases, Hn. }
    unfold forbidden_msg. repeat split; try lia; in_message.
  - intros Hnone. apply matched_keys_zero in Hnone.
    by rewrite does_not_contain_cases, Hnone.
Qed.

(** X11.  The number in the message counts each forbidden key that the
    mapping has once: for a list of keys without repetition it is the
    number of the keys of the list that are in the mapping. *)
Theorem does_not_contain_count ks cls (func : validator S) inst attr value s :
  NoDup ks ->
  (exists k, k ∈ ks /\ is_Some (value !! k)) ->
  does_not_contain ks cls func inst attr value s =
  (Raise (forbidden_error cls
            (length (List.filter (dict_contains value) ks)) inst attr), s).
Proof.
  intros Hnodup Hk.
  assert (Hcount : matched_keys ks value =
                   length (List.filter (dict_contains value) ks)).
  { clear Hk. induction Hnodup as [|k ks Hk _ IH]; [apply matched_keys_nil|].
    rewrite matched_keys_cons by done. cbn [List.filter].
    destruct (dict_contains value k); cbn; by rewrite IH. }
  apply matched_keys_pos in Hk. fold (matched_keys ks value) in Hk.
  apply Nat.ltb_lt in Hk.
  rewrite does_not_contain_cases, <- Hcount.
  by destruct (matched_keys ks value); [lia|].
Qed.

(** X12.  Laws of the decorator.  It accepts a mapping exactly when the
    mapping has none of the keys and the wrapped function accepts it, so
    it never accepts what the wrapped function rejects.  With no key
    listed it is the wrapped function.  Applied twice with the same keys
    it is as applied once; applied with two lists, in either order, it
    accepts what one application with both lists accepts. *)
Theorem does_not_contain_laws ks ks' cls cls' (func : validator S)
    inst attr value s :
  (passes (does_not_contain ks cls func inst attr value s) <->
   (forall k, k ∈ ks -> value !! k = None) /\
   passes (func inst attr value s)) /\
  does_not_contain [] cls func inst attr value s = func inst attr value s /\
  does_not_contain ks cls (does_not_contain ks cls func) inst attr value s =
    does_not_contain ks cls func inst attr value s /\
  (passes (does_not_contain ks cls (does_not_contain ks' cls' func)
             inst attr value s) <->
   passes (does_not_contain (ks ++ ks') cls func inst attr value s)) /\
  (passes (does_not_contain ks cls (does_not_contain ks' cls' func)
             inst attr value s) <->
   passes (does_not_contain ks' cls' (does_not_contain ks cls func)
             inst attr value s)).
Proof.
  split; [apply does_not_contain_passes|]. split; [|split; [|split]].
  - by rewrite does_not_contain_cases, matched_keys_nil.
  - rewrite (does_not_contain_cases ks cls (does_not_contain _ _ _)).
    destruct (matched_keys ks value) eqn:Hn; [done|].
    by rewrite does_not_contain_cases, Hn.
  - rewrite !does_not_contain_passes.
    setoid_rewrite elem_of_app. naive_solver.
  - rewrite !does_not_contain_passes. naive_solver.
Qed.

End DecoratorLaws.

(** ** Delegation to a sibling attribute *)

Section DelegationLaws.

Context {S : Type}.
Variable getattr : instance -> string -> M S (validator S).
Implicit Types (inst : instance) (attribute : attribute) (value : mapping).

(** X13.  The validator of [use_model_attr] looks the attribute up on the
    instance and calls what it finds on the same instance, attribute and
    value.  When the lookup raises, that exception comes out and nothing
    is called; when the validator found raises, that exception comes out;
    when it returns, whatever it returns, the outcome is [None].  So with
    a validator that returns [None] when it returns, as the five above
    do, the outcome is the one of that validator. *)
Theorem use_model_attr_spec attr inst attribute value (s : S) :
  (forall e s1,
     getattr inst attr s = (Raise e, s1) ->
     use_model_attr getattr attr inst attribute value s = (Raise e, s1)) /\
  (forall use s1,
     getattr inst attr s = (Return use, s1) ->
     (forall e s2,
        use inst attribute value s1 = (Raise e, s2) ->
        use_model_attr getattr attr inst attribute value s = (Raise e, s2)) /\
     (forall r s2,
        use inst attribute value s1 = (Return r, s2) ->
        use_model_attr getattr attr inst attribute value s =
          (Return PyNone, s2)) /\
     (reported inst attribute s1 (use inst attribute value s1) ->
      use_model_attr getattr attr inst attribute value s =
        use inst attribute value s1)).
Proof.
  unfold use_model_attr, bind, ret. split.
  - intros e s1 Hget. by rewrite Hget.
  - intros use s1 Hget. rewrite Hget. split; [|split].
    + intros e s2 Huse. by rewrite Huse.
    + intros r s2 Huse. by rewrite Huse.
    + intros [Huse | (msg & Huse & _)]; by rewrite Huse.
Qed.

End DelegationLaws.

(** ** The further properties at the sample payloads *)

Lemma work_and_manifestation_are_creations_witness :
  passes (is_work_model a_work data song tt) /\
  passes (is_creation_model a_work data song tt).
Proof.
  assert (H1 : passes (is_work_model a_work data song tt))
    by (vm_compute; reflexivity).
  exact (conj H1
    (proj1 (work_and_manifestation_are_creations a_work data song tt) H1)).
Defined.

Lemma right_copyright_exclusive_witness :
  is_Some (right_and_copyright !! "allowedBy") /\
  is_Some (right_and_copyright !! "rightsOf") /\
  is_right_model a_right data right_and_copyright tt =
    (Raise (forbidden_error ModelDataError 1 a_right data), tt) /\
  is_copyright_model a_copyright data right_and_copyright tt =
    (Raise (forbidden_error ModelDataError 1 a_copyright data), tt).
Proof.
  assert (H1 : is_Some (right_and_copyright !! "allowedBy"))
    by (exists (PyStr "right-1"); vm_compute; reflexivity).
  assert (H2 : is_Some (right_and_copyright !! "rightsOf"))
    by (exists (PyStr "work-9"); vm_compute; reflexivity).
  exact (conj H1 (conj H2
    (proj2 (right_copyright_exclusive a_right data a_copyright data
              right_and_copyright tt tt) H1 H2))).
Defined.

Lemma work_to_manifestation_and_back_witness :
  passes (is_work_model a_work data song tt) /\
  isinstance_str (PyStr "abc123") = true /\
  passes (is_manifestation_model a_work data
            (<[ "manifestationOfWork" := PyStr "abc123" ]>
               (<[ "isManifestation" := PyBool true ]> song)) tt).
Proof.
  assert (H1 : passes (is_work_model a_work data song tt))
    by (vm_compute; reflexivity).
  assert (H2 : isinstance_str (PyStr "abc123") = true) by reflexivity.
  exact (conj H1 (conj H2
    (proj1 (proj1 (work_to_manifestation_and_back a_work data song tt)
              H1 (PyStr "abc123") H2)))).
Defined.




Lemma does_not_contain_spec_witness :
  (exists k, k ∈ ["rightsOf"; "allowedBy"] /\
             is_Some (right_and_copyright !! k)) /\
  does_not_contain ["rightsOf"; "allowedBy"] ValueError counting
    a_right data right_and_copyright 0 =
  (Raise (Exn ValueError
     (forbidden_msg
        (pretty (matched_keys ["rightsOf"; "allowedBy"] right_and_copyright))
        (name data) (class_name a_right))), 0).
Proof.
  assert (H1 : exists k, k ∈ ["rightsOf"; "allowedBy"] /\
                         is_Some (right_and_copyright !! k)).
  { exists "rightsOf". split; [apply list_elem_of_here|].
    exists (PyStr "work-9"). vm_compute. reflexivity. }
  exact (conj H1
    (proj1 (proj1 (does_not_contain_spec ["rightsOf"; "allowedBy"] ValueError
                     counting a_right data right_and_copyright 0) H1))).
Defined.

Lemma does_not_contain_count_witness :
  NoDup ["rightsOf"; "allowedBy"; "license"] /\
  (exists k, k ∈ ["rightsOf"; "allowedBy"; "license"] /\
             is_Some (right_and_copyright !! k)) /\
  does_not_contain ["rightsOf"; "allowedBy"; "license"] ValueError counting
    a_right data right_and_copyright 0 =
  (Raise (forbidden_error ValueError
            (length (List.filter (dict_contains right_and_copyright)
                       ["rightsOf"; "allowedBy"; "license"]))
            a_right data), 0).
Proof.
  assert (H1 : NoDup ["rightsOf"; "allowedBy"; "license"]).
  { apply NoDup_ListNoDup. repeat constructor; cbn; intuition discriminate. }
  assert (H2 : exists k, k ∈ ["rightsOf"; "allowedBy"; "license"] /\
                         is_Some (right_and_copyright !! k)).
  { exists "rightsOf". split; [apply list_elem_of_here|].
    exists (PyStr "work-9"). vm_compute. reflexivity. }
  exact (conj H1 (conj H2
    (does_not_contain_count ["rightsOf"; "allowedBy"; "license"] ValueError
       counting a_right data right_and_copyright 0 H1 H2))).
Defined.

Lemma does_not_contain_laws_witness :
  passes (does_not_contain ["rightsOf"] ValueError
            (does_not_contain ["allowedBy"] ModelDataError counting)
            a_right data song 0) /\
  passes (does_not_contain (["rightsOf"] ++ ["allowedBy"]) ValueError counting
            a_right data song 0).
Proof.
  assert (H1 : passes (does_not_contain ["rightsOf"] ValueError
                         (does_not_contain ["allowedBy"] ModelDataError counting)
                         a_right data song 0))
    by (vm_compute; reflexivity).
  exact (conj H1
    (proj1 (proj1 (proj2 (proj2 (proj2
       (does_not_contain_laws ["rightsOf"] ["allowedBy"] ValueError
          ModelDataError counting a_right data song 0))))) H1)).
Defined.

Lemma use_model_attr_spec_witness :
  sibling_lookup a_work "validator" tt = (Return is_work_model, tt) /\
  is_work_model a_work data song_of_work tt =
    (Raise (work_key_error a_work data), tt) /\
  use_model_attr sibling_lookup "validator" a_work data song_of_work tt =
    (Raise (work_key_error a_work data), tt).
Proof.
  assert (H1 : sibling_lookup a_work "validator" tt = (Return is_work_model, tt))
    by reflexivity.
  assert (H2 : is_work_model a_work data song_of_work tt =
               (Raise (work_key_error a_work data), tt))
    by (vm_compute; reflexivity).
  exact (conj H1 (conj H2
    (proj1 (proj2 (use_model_attr_spec sibling_lookup "validator" a_work data
                     song_of_work tt) is_work_model tt H1)
       (work_key_error a_work data) tt H2))).
Defined.

(** The sample lookups: a sibling found and a sibling missing, and a
    validator whose answer is dropped. *)
Example use_model_attr_samples :
  use_model_attr sibling_lookup "validator" a_work data song tt =
    (Return PyNone, tt) /\
  use_model_attr sibling_lookup "other" a_work data song tt =
    (Raise (Exn KeyError "'other'"), tt) /\
  use_model_attr (fun _ _ => ret answering) "validator" a_work data song 0 =
    (Return PyNone, 1).
Proof. repeat split; vm_compute; reflexivity. Qed.
